(** * heFFTe: the real-to-complex 3D transform plan

    A shallow embedding of [heffte::fft3d_r2c] (include/heffte_fft3d_r2c.h).
    The header declares the class; the box algebra, the logic planner, the
    reshape operators and the 1D executors it builds on live in other files of
    the library.  What the header itself defines is embedded as written; what
    it only uses is either a parameter or a definition marked
    "Modelled from the spec". *)

From Stdlib Require Import ZArith List Bool Lia String.
From Stdlib Require PrimFloat Uint63.
Import ListNotations.
Open Scope Z_scope.

(** ** C++ scalars *)

(** [size_t] is a 64-bit unsigned integer; sums wrap around. *)
Definition size_t_modulus : Z := 2 ^ 64.
Definition size_t_add (a b : Z) : Z := (a + b) mod size_t_modulus.

(** [int] is a 32-bit two's-complement integer: a value that does not fit
    wraps around. *)
Definition int_modulus : Z := 2 ^ 32.
Definition int_wrap (z : Z) : Z := (z + 2 ^ 31) mod int_modulus - 2 ^ 31.

(** The conversion of an [int] to [size_t], as in a comparison of the two or
    in a call that takes a [size_t]: a negative value becomes a huge one. *)
Definition size_t_of_int (n : Z) : Z := n mod size_t_modulus.

(** [double] is IEEE binary64: the kernel's primitive floats. *)
Definition double : Type := PrimFloat.float.
Definition double_of_int (n : Z) : double := PrimFloat.of_uint63 (Uint63.of_Z n).

(** Modelled from the spec: [heffte::scale], the scaling selected at each
    transform call, is declared outside this header; it is one of [none],
    [full] and [symmetric]. *)
Inductive scale : Type := scale_none | scale_full | scale_symmetric.

Definition scale_eqb (a b : scale) : bool :=
  match a, b with
  | scale_none, scale_none | scale_full, scale_full
  | scale_symmetric, scale_symmetric => true
  | _, _ => false
  end.

(** ** Boxes *)

Module Box.

(** [std::array<int, 3>]. *)
Definition int3 : Type := (Z * Z * Z)%type.

Definition get (a : int3) (i : Z) : Z :=
  let '(x, y, z) := a in
  if i =? 0 then x else if i =? 1 then y else if i =? 2 then z else 0.

Definition set (a : int3) (i : Z) (v : Z) : int3 :=
  let '(x, y, z) := a in
  (if i =? 0 then v else x, if i =? 1 then v else y, if i =? 2 then v else z).

(** Modelled from the spec: [box3d] and its operations are declared outside
    this header.  A box is an inclusive lower corner, an inclusive upper
    corner and an axis order (which lattice axis varies fastest in memory);
    [size] is its extent along an axis, [empty] tells whether it holds no
    lattice point and [contains] whether it holds a given one. *)
Record box3d : Type := mk_box { low : int3; high : int3; order : int3 }.

Definition default_order : int3 := (0, 1, 2).
Definition box (lo hi : int3) : box3d := mk_box lo hi default_order.

Definition size (b : box3d) (i : Z) : Z := get (high b) i - get (low b) i + 1.

Definition empty (b : box3d) : bool :=
  (size b 0 <=? 0) || (size b 1 <=? 0) || (size b 2 <=? 0).

(** Modelled from the spec: [count = prod (hi_i - lo_i + 1)] when the box is
    not empty, else 0. *)
Definition count (b : box3d) : Z :=
  if empty b then 0 else size b 0 * size b 1 * size b 2.

Definition contains (b : box3d) (p : int3) : bool :=
  let '(x, y, z) := p in
  let '(lx, ly, lz) := low b in
  let '(hx, hy, hz) := high b in
  (lx <=? x) && (x <=? hx) && (ly <=? y) && (y <=? hy) && (lz <=? z) && (z <=? hz).

(** Modelled from the spec: the Hermitian-half box.  Along axis [dimension]
    the extent [N] shrinks to [N/2 + 1] (C++ integer division), the other two
    axes and the axis order are kept.  An index that names no axis changes
    nothing. *)
Definition r2c (b : box3d) (dimension : Z) : box3d :=
  mk_box (low b)
         (set (high b) dimension (get (low b) dimension + Z.quot (size b dimension) 2))
         (order b).

(** The lattice points of a box, in some order. *)
Definition zrange (lo hi : Z) : list Z :=
  map (fun k => lo + Z.of_nat k) (seq 0 (Z.to_nat (hi - lo + 1))).

Definition points (b : box3d) : list int3 :=
  let '(lx, ly, lz) := low b in
  let '(hx, hy, hz) := high b in
  flat_map (fun x =>
    flat_map (fun y => map (fun z => (x, y, z)) (zrange lz hz)) (zrange ly hy))
    (zrange lx hx).

(** Modelled from the spec: the intersection of two boxes is a box
    (possibly empty). *)
Definition intersect (a b : box3d) : box3d :=
  let '(alx, aly, alz) := low a in
  let '(ahx, ahy, ahz) := high a in
  let '(blx, bly, blz) := low b in
  let '(bhx, bhy, bhz) := high b in
  mk_box (Z.max alx blx, Z.max aly bly, Z.max alz blz)
         (Z.min ahx bhx, Z.min ahy bhy, Z.min ahz bhz)
         (order a).

(** Modelled from the spec: the global box is the box the per-rank boxes add
    up to; it is recovered as the smallest box that holds them all. *)
Definition hull (a b : box3d) : box3d :=
  let '(alx, aly, alz) := low a in
  let '(ahx, ahy, ahz) := high a in
  let '(blx, bly, blz) := low b in
  let '(bhx, bhy, bhz) := high b in
  mk_box (Z.min alx blx, Z.min aly bly, Z.min alz blz)
         (Z.max ahx bhx, Z.max ahy bhy, Z.max ahz bhz)
         default_order.

Definition find_world (boxes : list box3d) : box3d :=
  match boxes with
  | [] => box (0, 0, 0) (-1, -1, -1)
  | b :: rest => fold_left hull rest (box (low b) (high b))
  end.

End Box.

Import Box.

(** ** Reshape operators and 1D executors, as far as the plan queries them *)

(** Modelled from the spec: [reshape3d_base] is declared outside this header.
    A reshape stage needs a communication workspace of its send volume plus
    its receive volume. *)
Record reshape3d : Type := mk_reshape { send_volume : Z; recv_volume : Z }.

Definition reshape_size_workspace (s : reshape3d) : Z :=
  size_t_add (send_volume s) (recv_volume s).

(** Modelled from the spec: a 1D executor exposes the size of the scratch
    buffer it needs. *)
Record executor1d : Type := mk_executor { scratch_size : Z }.

(** [std::array<T, 4>] and [std::array<T, 2>]. *)
Definition array4 (A : Type) : Type := (A * A * A * A)%type.
Definition array2 (A : Type) : Type := (A * A)%type.
Definition array4_list {A} (a : array4 A) : list A :=
  let '(a0, a1, a2, a3) := a in [a0; a1; a2; a3].
Definition array2_list {A} (a : array2 A) : list A :=
  let '(a0, a1) := a in [a0; a1].

(** Modelled from the spec: [get_workspace_size] is the maximum, over the
    reshape stages that exist (a null pointer is an identity stage that is
    skipped), of the stage's communication workspace. *)
Definition get_workspace_size (shapers : array4 (option reshape3d)) : Z :=
  fold_left
    (fun max_size s =>
       match s with
       | Some r => Z.max max_size (reshape_size_workspace r)
       | None => max_size
       end)
    (array4_list shapers) 0.

(** Modelled from the spec: [get_max_size] is the maximum scratch size over
    the R2C executor and the two C2C executors. *)
Definition get_max_size (executor_r2c : executor1d) (executor : array2 executor1d) : Z :=
  fold_left (fun m e => Z.max m (scratch_size e))
            (array2_list executor) (scratch_size executor_r2c).

(** ** The plan: the private members of [fft3d_r2c] *)

Record fft3d_r2c : Type := mk_plan {
  pinbox : box3d;
  poutbox : box3d;
  scale_factor : double;
  forward_shaper : array4 (option reshape3d);
  backward_shaper : array4 (option reshape3d);
  executor_r2c : executor1d;
  executor : array2 executor1d
}.

(** *** Queries *)

(** [int size_inbox() const] and [int size_outbox() const]: the count of the
    box as an [int]. *)
Definition size_inbox (p : fft3d_r2c) : Z := int_wrap (count (pinbox p)).
Definition size_outbox (p : fft3d_r2c) : Z := int_wrap (count (poutbox p)).
Definition inbox (p : fft3d_r2c) : box3d := pinbox p.
Definition outbox (p : fft3d_r2c) : box3d := poutbox p.

Definition size_workspace (p : fft3d_r2c) : Z :=
  size_t_add
    (Z.max (get_workspace_size (forward_shaper p)) (get_workspace_size (backward_shaper p)))
    (get_max_size (executor_r2c p) (executor p)).

Definition size_comm_buffers (p : fft3d_r2c) : Z :=
  Z.max (get_workspace_size (forward_shaper p)) (get_workspace_size (backward_shaper p)).

Definition get_scale_factor (p : fft3d_r2c) (scaling : scale) : double :=
  if scale_eqb scaling scale_symmetric
  then PrimFloat.sqrt (scale_factor p)
  else scale_factor p.

(** ** Plan construction *)

(** The boxes of all ranks, in rank order ([heffte::ioboxes]). *)
Record ioboxes : Type := mk_ioboxes { boxes_in : list box3d; boxes_out : list box3d }.

(** The communicator, seen from one rank: the boxes that the ranks below and
    above this one pass to the same collective constructor call. *)
Record MPI_Comm : Type := mk_comm {
  ranks_before : list (box3d * box3d);
  ranks_after : list (box3d * box3d)
}.

Definition comm_rank (comm : MPI_Comm) : nat := List.length (ranks_before comm).

(** Modelled from the spec: [gather] returns every rank's input and output
    box in rank order. *)
Definition gather_boxes (inbox outbox : box3d) (comm : MPI_Comm) : ioboxes :=
  let all := ranks_before comm ++ (inbox, outbox) :: ranks_after comm in
  mk_ioboxes (map fst all) (map snd all).

(** Modelled from the spec: the errors of plan construction. *)
Inductive plan_error : Type := InvalidPartition | InvalidR2CAxis.

(** Modelled from the spec: the per-rank boxes tile the global box when
    their union equals it and no two of them overlap. *)
Definition covers (boxes : list box3d) (world : box3d) : bool :=
  forallb (fun b => forallb (contains world) (points b)) boxes
  && forallb (fun p => existsb (fun b => contains b p) boxes) (points world).

Fixpoint pairwise_disjoint (boxes : list box3d) : bool :=
  match boxes with
  | [] => true
  | b :: rest => forallb (fun c => empty (intersect b c)) rest && pairwise_disjoint rest
  end.

Definition tiles (boxes : list box3d) (world : box3d) : bool :=
  covers boxes world && pairwise_disjoint boxes.

(** Modelled from the spec: the part of [logic_plan3d] the plan reads for its
    queries.  [L0] is the input partition, [L3] the output partition,
    [fft_axis0] the first FFT axis (the R2C axis) and [index_count] the number
    of lattice points of the full global input box.  The intermediate pencil
    layouts, which the spec leaves to a cost heuristic, are not modelled. *)
Record logic_plan3d : Type := mk_logic_plan {
  L0 : list box3d;
  L3 : list box3d;
  fft_axis0 : Z;
  index_count : Z
}.

(** Modelled from the spec: the transformed global box of the R2C geometry
    contract. *)
Definition world_in (boxes : ioboxes) : box3d := find_world (boxes_in boxes).
Definition world_out (boxes : ioboxes) (r2c_direction : Z) : box3d :=
  r2c (world_in boxes) r2c_direction.

(** The axes of a 3D box. *)
Definition valid_r2c_direction (r2c_direction : Z) : bool :=
  (r2c_direction =? 0) || (r2c_direction =? 1) || (r2c_direction =? 2).

(** Modelled from the spec: [plan_operations] is defined outside this header.
    It fails with [InvalidR2CAxis] when the axis is outside [{0,1,2}], and
    with [InvalidPartition] when the per-rank boxes do not tile the global
    box; the output boxes have to tile the shortened box.  The axis comes
    first: without an axis there is no shortened box to hold the output
    boxes against. *)
Definition plan_operations (boxes : ioboxes) (r2c_direction : Z)
  : logic_plan3d + plan_error :=
  if negb (valid_r2c_direction r2c_direction) then inr InvalidR2CAxis
  else if tiles (boxes_in boxes) (world_in boxes)
          && tiles (boxes_out boxes) (world_out boxes r2c_direction)
  then inl (mk_logic_plan (boxes_in boxes) (boxes_out boxes) r2c_direction
                          (count (world_in boxes)))
  else inr InvalidPartition.

(** ** Transform data and the backend *)

(** What a call can throw: the header throws [std::invalid_argument]; a
    container throws [std::length_error] when asked for more entries than it
    can hold; the transport and the 1D engines may fail inside the
    transform. *)
Inductive exception : Type :=
| std_invalid_argument (what : string)
| std_length_error
| engine_failure (what : string).

Inductive outcome (A : Type) : Type :=
| Returned (a : A)
| Thrown (e : exception).
Arguments Returned {A} a.
Arguments Thrown {A} e.

(** The objects behind the pointer members of a plan: the reshape operators
    of the two pipelines and the executors. *)
Record engines : Type := mk_engines {
  eng_forward : array4 (option reshape3d);
  eng_backward : array4 (option reshape3d);
  eng_r2c : executor1d;
  eng_c2c : array2 executor1d
}.

(** The template parameters of the class and of its transform methods: the
    backend tag and the real precision.  The header declares the two
    transforms that take a workspace and leaves their definition, like the
    construction of the reshape operators and of the executors, to the rest
    of the library; they are the operations of this interface.  A transform
    works on raw arrays: it reads the input and the workspace and produces
    the values it stores at the start of the output array.  It is a [const]
    member, so it assigns to no member of the plan; the reshape operators and
    the executors, however, sit behind [std::unique_ptr], and a [const] member
    may change the objects those point to: [r2c_effect] and [c2r_effect] give
    the state a transform leaves them in, whether it returns or throws. *)
Class Backend : Type := mk_backend {
  scalar : Type;
  scalar_zero : scalar;
  r2c_transform :
    fft3d_r2c -> list scalar -> list (scalar * scalar) -> scale -> outcome (list (scalar * scalar));
  c2r_transform :
    fft3d_r2c -> list (scalar * scalar) -> list (scalar * scalar) -> scale -> outcome (list scalar);
  make_shapers :
    logic_plan3d -> nat -> array4 (option reshape3d) * array4 (option reshape3d);
  make_executors : logic_plan3d -> nat -> executor1d * array2 executor1d;
  r2c_effect :
    fft3d_r2c -> list scalar -> list (scalar * scalar) -> scale -> engines;
  c2r_effect :
    fft3d_r2c -> list (scalar * scalar) -> list (scalar * scalar) -> scale -> engines
}.

(** [std::complex<scalar_type>]. *)
Definition complex {B : Backend} : Type := (scalar * scalar)%type.
Definition complex_zero {B : Backend} : complex := (scalar_zero, scalar_zero).

(** [buffer_container<T>(n)]: a vector of [n] value-initialised entries. *)
Definition buffer_container {A} (zero : A) (n : Z) : list A := repeat zero (Z.to_nat n).

(** No container holds more than [PTRDIFF_MAX] entries.  An [int] converted
    to [size_t] is either below [2^31] or, when it was negative, above this
    bound. *)
Definition container_max_size : Z := 2 ^ 63 - 1.

(** [buffer_container<T> v(n)] in a function body: the constructor throws
    [std::length_error] when [n] is more than the container can hold. *)
Definition vector_alloc {A} (zero : A) (n : Z) : outcome (list A) :=
  if n <=? container_max_size
  then Returned (buffer_container zero n)
  else Thrown std_length_error.

(** A store through a raw pointer: the cells of [dst] that [src] reaches are
    overwritten, and the array keeps its length (a write past its end is
    undefined in C++ and does not happen here). *)
Fixpoint store {A} (dst src : list A) : list A :=
  match dst, src with
  | _ :: dst', s :: src' => s :: store dst' src'
  | _, _ => dst
  end.

Definition outcome_map {A B} (f : A -> B) (o : outcome A) : outcome B :=
  match o with
  | Returned a => Returned (f a)
  | Thrown e => Thrown e
  end.

(** *** The private constructor and the public one *)

Definition no_box : box3d := box (0, 0, 0) (-1, -1, -1).

(** Modelled from the spec: the private constructor is defined outside this
    header ("same as in the fft3d case").  The plan keeps this rank's box of
    the input and of the output partition, and the scale factor [1 / N0 N1 N2]
    over the full axis lengths of the global input box. *)
Definition build {B : Backend} (plan : logic_plan3d) (this_mpi_rank : nat) (comm : MPI_Comm)
  : fft3d_r2c :=
  mk_plan (nth this_mpi_rank (L0 plan) no_box)
          (nth this_mpi_rank (L3 plan) no_box)
          (PrimFloat.div PrimFloat.one (double_of_int (index_count plan)))
          (fst (make_shapers plan this_mpi_rank))
          (snd (make_shapers plan this_mpi_rank))
          (fst (make_executors plan this_mpi_rank))
          (snd (make_executors plan this_mpi_rank)).

(** How a construction ends.  The public constructor delegates to the private
    one, which runs to completion before the body of the public one starts;
    the [assert] in that body therefore sees a plan that is already built. *)
Inductive construction : Type :=
| Constructed (p : fft3d_r2c)
| AssertionFailed (built : fft3d_r2c)
| Rejected (e : plan_error).

(** [fft3d_r2c(inbox, outbox, r2c_direction, comm)].  [NDEBUG] tells whether
    the translation unit is compiled with assertions disabled. *)
Definition construct {B : Backend} (NDEBUG : bool)
    (inbox outbox : box3d) (r2c_direction : Z) (comm : MPI_Comm) : construction :=
  match plan_operations (gather_boxes inbox outbox comm) r2c_direction with
  | inr e => Rejected e
  | inl plan =>
      let p := build plan (comm_rank comm) comm in
      if NDEBUG || valid_r2c_direction r2c_direction
      then Constructed p
      else AssertionFailed p
  end.

(** *** The transforms *)

(** The declared-only overloads with a workspace: the results of the
    transform are stored into the output array. *)
Definition standard_transform_r2c_ws {B : Backend} (p : fft3d_r2c)
    (input : list scalar) (output workspace : list complex) (scaling : scale)
  : outcome (list complex) :=
  outcome_map (store output) (r2c_transform p input workspace scaling).

Definition standard_transform_c2r_ws {B : Backend} (p : fft3d_r2c)
    (input : list complex) (output : list scalar) (workspace : list complex) (scaling : scale)
  : outcome (list scalar) :=
  outcome_map (store output) (c2r_transform p input workspace scaling).

(** The overloads without a workspace allocate one of [size_workspace()]
    complex entries. *)
Definition standard_transform_r2c {B : Backend} (p : fft3d_r2c)
    (input : list scalar) (output : list complex) (scaling : scale) : outcome (list complex) :=
  let workspace := buffer_container complex_zero (size_workspace p) in
  standard_transform_r2c_ws p input output workspace scaling.

Definition standard_transform_c2r {B : Backend} (p : fft3d_r2c)
    (input : list complex) (output : list scalar) (scaling : scale) : outcome (list scalar) :=
  let workspace := buffer_container complex_zero (size_workspace p) in
  standard_transform_c2r_ws p input output workspace scaling.

(** [forward(input, output, scaling)]; [convert_to_standard] only changes the
    static type of a pointer.  The result is the output array after the call. *)
Definition forward {B : Backend} (p : fft3d_r2c)
    (input : list scalar) (output : list complex) (scaling : scale) : outcome (list complex) :=
  standard_transform_r2c p input output scaling.

(** [forward(input, output, workspace, scaling)]. *)
Definition forward_workspace {B : Backend} (p : fft3d_r2c)
    (input : list scalar) (output workspace : list complex) (scaling : scale)
  : outcome (list complex) :=
  standard_transform_r2c_ws p input output workspace scaling.

Definition forward_size_message : string :=
  "The input vector is smaller than size_inbox(), i.e., not enough entries provided to fill the inbox.".

(** [forward(buffer_container const &input, scaling)].  [input.size()] is a
    [size_t], so the [int] it is compared with is converted to [size_t]; the
    output container is constructed from an [int] converted to [size_t]. *)
Definition forward_container {B : Backend} (p : fft3d_r2c)
    (input : list scalar) (scaling : scale) : outcome (list complex) :=
  if Z.of_nat (List.length input) <? size_t_of_int (size_inbox p)
  then Thrown (std_invalid_argument forward_size_message)
  else
    match vector_alloc complex_zero (size_t_of_int (size_outbox p)) with
    | Thrown e => Thrown e
    | Returned output => forward p input output scaling
    end.

(** [backward(input, output, scaling)]. *)
Definition backward {B : Backend} (p : fft3d_r2c)
    (input : list complex) (output : list scalar) (scaling : scale) : outcome (list scalar) :=
  standard_transform_c2r p input output scaling.

(** [backward(input, output, workspace, scaling)]. *)
Definition backward_workspace {B : Backend} (p : fft3d_r2c)
    (input : list complex) (output : list scalar) (workspace : list complex) (scaling : scale)
  : outcome (list scalar) :=
  standard_transform_c2r_ws p input output workspace scaling.

(** [backward(buffer_container const &input, scaling)]: the result container
    is constructed from an [int] converted to [size_t]. *)
Definition backward_container {B : Backend} (p : fft3d_r2c)
    (input : list complex) (scaling : scale) : outcome (list scalar) :=
  match vector_alloc scalar_zero (size_t_of_int (size_inbox p)) with
  | Thrown e => Thrown e
  | Returned result => backward p input result scaling
  end.

(** *** Calls on a plan object *)

(** A member function takes the object and hands it back with its result. *)
Definition method (A : Type) : Type := fft3d_r2c -> fft3d_r2c * outcome A.

(** What a [const] member can do to a pointer member: a [const]
    [std::unique_ptr] cannot be reseated, so a null pointer stays null and a
    pointer to an object keeps pointing to it, while the object may change. *)
Definition repoint (old new : option reshape3d) : option reshape3d :=
  match old, new with
  | Some _, Some r => Some r
  | _, _ => old
  end.

Definition repoint4 (old new : array4 (option reshape3d)) : array4 (option reshape3d) :=
  let '(o0, o1, o2, o3) := old in
  let '(n0, n1, n2, n3) := new in
  (repoint o0 n0, repoint o1 n1, repoint o2 n2, repoint o3 n3).

(** The plan after a [const] member has run: [pinbox], [poutbox] and
    [scale_factor] are [const] members and stay, the objects behind the
    pointers are in the state the member left them in. *)
Definition with_engines (this : fft3d_r2c) (e : engines) : fft3d_r2c :=
  mk_plan (pinbox this) (poutbox this) (scale_factor this)
          (repoint4 (forward_shaper this) (eng_forward e))
          (repoint4 (backward_shaper this) (eng_backward e))
          (eng_r2c e) (eng_c2c e).

(** The array a transform call leaves behind. *)
Inductive transformed {B : Backend} : Type :=
| complex_array (data : list complex)
| real_array (data : list scalar).

(** The six transform entry points with their arguments. *)
Inductive call {B : Backend} : Type :=
| call_forward (input : list scalar) (output : list complex) (scaling : scale)
| call_forward_workspace (input : list scalar) (output workspace : list complex) (scaling : scale)
| call_forward_container (input : list scalar) (scaling : scale)
| call_backward (input : list complex) (output : list scalar) (scaling : scale)
| call_backward_workspace (input : list complex) (output : list scalar)
                          (workspace : list complex) (scaling : scale)
| call_backward_container (input : list complex) (scaling : scale).

(** A run of the real-to-complex transform with a workspace, and one of the
    complex-to-real transform, as members of the object. *)
Definition run_r2c {B : Backend}
    (input : list scalar) (output workspace : list complex) (scaling : scale)
  : method transformed :=
  fun this =>
    (with_engines this (r2c_effect this input workspace scaling),
     outcome_map complex_array (forward_workspace this input output workspace scaling)).

Definition run_c2r {B : Backend}
    (input : list complex) (output : list scalar) (workspace : list complex) (scaling : scale)
  : method transformed :=
  fun this =>
    (with_engines this (c2r_effect this input workspace scaling),
     outcome_map real_array (backward_workspace this input output workspace scaling)).

(** The four array overloads are declared [const]; those without a workspace
    argument run the transform on a workspace of [size_workspace()] entries.
    The two container overloads are not [const], and their bodies only call
    [const] members: the size queries and the array overload.  A container
    overload that throws before it reaches the transform leaves the object
    untouched. *)
Definition exec {B : Backend} (c : call) : method transformed :=
  fun this =>
    match c with
    | call_forward input output scaling =>
        run_r2c input output (buffer_container complex_zero (size_workspace this)) scaling this
    | call_forward_workspace input output workspace scaling =>
        run_r2c input output workspace scaling this
    | call_forward_container input scaling =>
        if Z.of_nat (List.length input) <? size_t_of_int (size_inbox this)
        then (this, Thrown (std_invalid_argument forward_size_message))
        else
          match vector_alloc complex_zero (size_t_of_int (size_outbox this)) with
          | Thrown e => (this, Thrown e)
          | Returned output =>
              run_r2c input output (buffer_container complex_zero (size_workspace this))
                      scaling this
          end
    | call_backward input output scaling =>
        run_c2r input output (buffer_container complex_zero (size_workspace this)) scaling this
    | call_backward_workspace input output workspace scaling =>
        run_c2r input output workspace scaling this
    | call_backward_container input scaling =>
        match vector_alloc scalar_zero (size_t_of_int (size_inbox this)) with
        | Thrown e => (this, Thrown e)
        | Returned result =>
            run_c2r input result (buffer_container complex_zero (size_workspace this))
                    scaling this
        end
    end.

(** A sequence of calls on one plan: the plan after the last call and the
    outcome of each call. *)
Fixpoint run {B : Backend} (calls : list call) (this : fft3d_r2c)
  : fft3d_r2c * list (outcome transformed) :=
  match calls with
  | [] => (this, [])
  | c :: rest =>
      let '(this1, o) := exec c this in
      let '(this2, os) := run rest this1 in
      (this2, o :: os)
  end.

(** ** Element types at the call site *)

Module CallSite.

Inductive precision : Type := single | double_precision.

(** The element types a call can be instantiated with: the two real types,
    [std::complex] of each, the complex type of a backend library of each
    precision (such as [fftwf_complex] and [fftw_complex]), and any other
    type. *)
Inductive cxx_type : Type :=
| t_float
| t_double
| t_std_complex (pr : precision)
| t_backend_complex (pr : precision)
| t_other (name : string).

Definition precision_eqb (a b : precision) : bool :=
  match a, b with
  | single, single | double_precision, double_precision => true
  | _, _ => false
  end.

(** [std::is_same<a, b>::value]. *)
Definition is_same (a b : cxx_type) : bool :=
  match a, b with
  | t_float, t_float | t_double, t_double => true
  | t_std_complex p, t_std_complex q | t_backend_complex p, t_backend_complex q =>
      precision_eqb p q
  | t_other n, t_other m => String.eqb n m
  | _, _ => false
  end.

(** Modelled from the spec: the traits [is_ccomplex] and [is_zcomplex] are
    declared outside this header; they hold of the single-precision and of
    the double-precision complex types. *)
Definition is_ccomplex (t : cxx_type) : bool :=
  match t with
  | t_std_complex single | t_backend_complex single => true
  | _ => false
  end.

Definition is_zcomplex (t : cxx_type) : bool :=
  match t with
  | t_std_complex double_precision | t_backend_complex double_precision => true
  | _ => false
  end.

Definition real_of (pr : precision) : cxx_type :=
  match pr with single => t_float | double_precision => t_double end.

(** Modelled from the spec: [define_standard_type], the type
    [convert_to_standard] casts to, is declared outside this header; a complex
    type of a backend becomes [std::complex] of the same precision. *)
Definition define_standard_type (t : cxx_type) : cxx_type :=
  match t with
  | t_backend_complex pr => t_std_complex pr
  | _ => t
  end.

(** Modelled from the spec: [fft_output<T>::type], declared outside this
    header, is the complex type of the precision of the real type [T]. *)
Definition fft_output (t : cxx_type) : option cxx_type :=
  match t with
  | t_float => Some (t_std_complex single)
  | t_double => Some (t_std_complex double_precision)
  | _ => None
  end.

(** [define_standard_type<T>::type::value_type]. *)
Definition standard_value_type (t : cxx_type) : option cxx_type :=
  match define_standard_type t with
  | t_std_complex pr => Some (real_of pr)
  | _ => None
  end.

(** Which overload of [standard_transform] a pair of array types selects:
    [(scalar_type const[], std::complex<scalar_type>[])] or
    [(std::complex<scalar_type> const[], scalar_type[])]. *)
Definition viable_r2c (input output : cxx_type) : bool :=
  match output with
  | t_std_complex pr => is_same input (real_of pr)
  | _ => false
  end.

Definition viable_c2r (input output : cxx_type) : bool :=
  match input with
  | t_std_complex pr => is_same output (real_of pr)
  | _ => false
  end.

Definition standard_transform_resolves (input output : cxx_type) : bool :=
  viable_r2c (define_standard_type input) (define_standard_type output)
  || viable_c2r (define_standard_type input) (define_standard_type output).

(** The [static_assert] of [forward] (both array overloads). *)
Definition forward_static_assert (input_type output_type : cxx_type) : bool :=
  (is_same input_type t_float && is_ccomplex output_type)
  || (is_same input_type t_double && is_zcomplex output_type).

(** The [static_assert] of [backward] (both array overloads). *)
Definition backward_static_assert (input_type output_type : cxx_type) : bool :=
  (is_same output_type t_float && is_ccomplex input_type)
  || (is_same output_type t_double && is_zcomplex input_type).

(** A call site compiles when the [static_assert] holds and the call in the
    body resolves. *)
Definition forward_compiles (input_type output_type : cxx_type) : bool :=
  forward_static_assert input_type output_type
  && standard_transform_resolves input_type output_type.

Definition backward_compiles (input_type output_type : cxx_type) : bool :=
  backward_static_assert input_type output_type
  && standard_transform_resolves input_type output_type.

(** The overloads with a workspace: the workspace array has the complex
    type of the call, [output_type] for [forward] and [input_type] for
    [backward]; any other type leaves the template parameter without a
    deduction. *)
Definition forward_workspace_compiles (input_type output_type workspace_type : cxx_type)
  : bool :=
  is_same workspace_type output_type && forward_compiles input_type output_type.

Definition backward_workspace_compiles (input_type output_type workspace_type : cxx_type)
  : bool :=
  is_same workspace_type input_type && backward_compiles input_type output_type.

(** The container overloads: their own [static_assert], the type of the
    container they return, and the array overload they call with it. *)
Definition forward_container_compiles (input_type : cxx_type) : bool :=
  (is_same input_type t_float || is_same input_type t_double)
  && match fft_output input_type with
     | Some output_type => forward_compiles input_type output_type
     | None => false
     end.

Definition backward_container_compiles (scalar_type : cxx_type) : bool :=
  (is_ccomplex scalar_type || is_zcomplex scalar_type)
  && match standard_value_type scalar_type with
     | Some output_type => backward_compiles scalar_type output_type
     | None => false
     end.

End CallSite.

(** ** The sizes in the words of the data model *)

Definition list_max (l : list Z) : Z := fold_right Z.max 0 l.

Definition present {A} (o : option A) : list A :=
  match o with Some a => [a] | None => [] end.

(** The reshape stages of a plan, forward and backward. *)
Definition reshape_stages (p : fft3d_r2c) : list reshape3d :=
  flat_map present (array4_list (forward_shaper p) ++ array4_list (backward_shaper p)).

(** The 1D executors of a plan. *)
Definition executors (p : fft3d_r2c) : list executor1d :=
  executor_r2c p :: array2_list (executor p).

(** The maximum over the stages of send volume plus receive volume. *)
Definition max_comm_workspace (p : fft3d_r2c) : Z :=
  list_max (map reshape_size_workspace (reshape_stages p)).

(** The maximum scratch size over the executors. *)
Definition max_executor_scratch (p : fft3d_r2c) : Z :=
  match map scratch_size (executors p) with
  | [] => 0
  | s :: rest => fold_right Z.max s rest
  end.



(** The boxes of a list that hold a lattice point. *)
Definition in_union (boxes : list box3d) (pt : int3) : Prop :=
  exists b, In b boxes /\ contains b pt = true.

(** ** An instance to run the definitions on *)

Module Example.

(** What the transforms of the example do to a reshape operator: the send
    and the receive side trade places. *)
Definition turn (s : option reshape3d) : option reshape3d :=
  option_map (fun r => mk_reshape (recv_volume r) (send_volume r)) s.

Definition turn4 (a : array4 (option reshape3d)) : array4 (option reshape3d) :=
  let '(a0, a1, a2, a3) := a in (turn a0, turn a1, turn a2, turn a3).

Definition turned (p : fft3d_r2c) : engines :=
  mk_engines (turn4 (forward_shaper p)) (turn4 (backward_shaper p))
             (executor_r2c p) (executor p).

(** A backend over integers: the forward transform pairs every input value
    with a zero imaginary part, the backward one takes the real parts; every
    stage exchanges this rank's boxes, and every run of a transform turns the
    reshape operators around. *)
Definition backend : Backend :=
  mk_backend Z 0
    (fun _ input _ _ => Returned (map (fun x => (x, 0)) input))
    (fun _ input _ _ => Returned (map fst input))
    (fun plan rank =>
       let n_in := count (nth rank (L0 plan) no_box) in
       let n_out := count (nth rank (L3 plan) no_box) in
       ((Some (mk_reshape n_in n_in), None, Some (mk_reshape n_out n_out), None),
        (None, Some (mk_reshape n_out n_out), None, Some (mk_reshape n_in n_in))))
    (fun plan rank =>
       let n_in := count (nth rank (L0 plan) no_box) in
       (mk_executor n_in, (mk_executor 0, mk_executor 0)))
    (fun p _ _ _ => turned p)
    (fun p _ _ _ => turned p).

(** Two ranks split the box [{(0,0,0),(5,5,5)}] along axis 2; with the R2C
    axis 0 the output boxes tile [{(0,0,0),(3,5,5)}]. *)
Definition inbox0 : box3d := box (0, 0, 0) (5, 5, 2).
Definition inbox1 : box3d := box (0, 0, 3) (5, 5, 5).
Definition outbox0 : box3d := box (0, 0, 0) (3, 5, 2).
Definition outbox1 : box3d := box (0, 0, 3) (3, 5, 5).
Definition comm0 : MPI_Comm := mk_comm [] [(inbox1, outbox1)].
Definition all_boxes : ioboxes := gather_boxes inbox0 outbox0 comm0.

(** A single rank that owns the box [{(0,0,0),(1,1,1)}] on both sides. *)
Definition cube : box3d := box (0, 0, 0) (1, 1, 1).
Definition self : MPI_Comm := mk_comm [] [].
Definition cube_plan : fft3d_r2c :=
  mk_plan cube cube (PrimFloat.div PrimFloat.one (double_of_int 8))
          (Some (mk_reshape 8 8), None, Some (mk_reshape 8 8), None)
          (None, Some (mk_reshape 8 8), None, Some (mk_reshape 8 8))
          (mk_executor 8) (mk_executor 0, mk_executor 0).


End Example.

(** * Properties *)

(** ** Scalars and boxes *)

Lemma scale_eqb_eq (a b : scale) : scale_eqb a b = true <-> a = b.
Proof. destruct a, b; simpl; split; (congruence || discriminate). Qed.

Lemma count_nonneg (b : box3d) : 0 <= count b.
Proof.
  unfold count, empty.
  destruct (size b 0 <=? 0) eqn:E0; simpl; [lia|].
  destruct (size b 1 <=? 0) eqn:E1; simpl; [lia|].
  destruct (size b 2 <=? 0) eqn:E2; simpl; [lia|].
  apply Z.leb_gt in E0, E1, E2. nia.
Qed.

Lemma int_wrap_range (z : Z) : - 2 ^ 31 <= int_wrap z < 2 ^ 31.
Proof.
  unfold int_wrap, int_modulus.
  pose proof (Z.mod_pos_bound (z + 2 ^ 31) (2 ^ 32) ltac:(lia)). lia.
Qed.

Lemma int_wrap_small (z : Z) : - 2 ^ 31 <= z < 2 ^ 31 -> int_wrap z = z.
Proof.
  intro H. unfold int_wrap, int_modulus. rewrite Z.mod_small; lia.
Qed.

Lemma size_t_of_int_nonneg (n : Z) : 0 <= n < 2 ^ 31 -> size_t_of_int n = n.
Proof.
  intro H. unfold size_t_of_int, size_t_modulus. apply Z.mod_small. lia.
Qed.

Lemma size_t_of_int_negative (n : Z) :
  - 2 ^ 31 <= n < 0 -> container_max_size < size_t_of_int n < size_t_modulus.
Proof.
  intro H. unfold size_t_of_int, size_t_modulus, container_max_size.
  replace n with (n + 2 ^ 64 + (-1) * 2 ^ 64) by ring.
  rewrite Z.mod_add by lia. rewrite Z.mod_small; lia.
Qed.

(** ** The scale factor *)

Lemma get_scale_factor_cases (p : fft3d_r2c) (scaling : scale) :
  get_scale_factor p scaling =
  match scaling with
  | scale_symmetric => PrimFloat.sqrt (scale_factor p)
  | scale_full | scale_none => scale_factor p
  end.
Proof. destruct scaling; reflexivity. Qed.

(** C1, evaluated on the code.  A single rank builds the plan over the box
    [{(0,0,0),(1,1,1)}], whose global input box has [2 * 2 * 2 = 8] points.
    [get_scale_factor(scale::none)] falls into the branch of
    [scale::full] and returns [1/8], which is not [1]. *)
Theorem get_scale_factor_none_cube :
  construct (B := Example.backend) false Example.cube Example.cube 0 Example.self
  = Constructed Example.cube_plan
  /\ get_scale_factor Example.cube_plan scale_none
     = PrimFloat.div PrimFloat.one (double_of_int (2 * 2 * 2))
  /\ get_scale_factor Example.cube_plan scale_none
     = get_scale_factor Example.cube_plan scale_full
  /\ PrimFloat.eqb (get_scale_factor Example.cube_plan scale_none) PrimFloat.one = false
  /\ get_scale_factor Example.cube_plan scale_none <> PrimFloat.one.
Proof.
  assert (Hne : PrimFloat.eqb (get_scale_factor Example.cube_plan scale_none) PrimFloat.one
                = false) by (vm_compute; reflexivity).
  split; [vm_compute; reflexivity|].
  split; [rewrite get_scale_factor_cases; vm_compute; reflexivity|].
  split; [rewrite !get_scale_factor_cases; reflexivity|].
  split; [exact Hne|].
  intro E. rewrite E in Hne. vm_compute in Hne. discriminate Hne.
Qed.

(** ** Workspace sizes *)

Lemma list_max_nonneg (l : list Z) : 0 <= list_max l.
Proof. induction l as [|x l IH]; simpl; lia. Qed.

Lemma list_max_app (l1 l2 : list Z) :
  list_max (l1 ++ l2) = Z.max (list_max l1) (list_max l2).
Proof.
  induction l1 as [|x l1 IH]; simpl.
  - pose proof (list_max_nonneg l2). lia.
  - rewrite IH. lia.
Qed.

Lemma fold_shapers_max (l : list (option reshape3d)) (a : Z) :
  fold_left
    (fun max_size s =>
       match s with
       | Some r => Z.max max_size (reshape_size_workspace r)
       | None => max_size
       end) l a
  = Z.max a (fold_right Z.max a (map reshape_size_workspace (flat_map present l))).
Proof.
  revert a. induction l as [|[r|] l IH]; intro a; simpl.
  - lia.
  - rewrite IH.
    assert (G : forall xs b, b <= fold_right Z.max b xs).
    { induction xs as [|x xs IHx]; simpl; intro b; [lia|].
      specialize (IHx b). lia. }
    assert (U : forall xs b c, fold_right Z.max (Z.max b c) xs
                               = Z.max c (fold_right Z.max b xs)).
    { induction xs as [|x xs IHx]; simpl; intros b c; [lia|].
      rewrite IHx. lia. }
    rewrite U. pose proof (G (map reshape_size_workspace (flat_map present l)) a). lia.
  - apply IH.
Qed.

Lemma get_workspace_size_max (shapers : array4 (option reshape3d)) :
  get_workspace_size shapers
  = list_max (map reshape_size_workspace (flat_map present (array4_list shapers))).
Proof.
  unfold get_workspace_size. rewrite fold_shapers_max.
  fold (list_max (map reshape_size_workspace (flat_map present (array4_list shapers)))).
  pose proof (list_max_nonneg
                (map reshape_size_workspace (flat_map present (array4_list shapers)))).
  lia.
Qed.

Lemma size_comm_buffers_max (p : fft3d_r2c) : size_comm_buffers p = max_comm_workspace p.
Proof.
  unfold size_comm_buffers, max_comm_workspace, reshape_stages.
  rewrite flat_map_app, map_app, list_max_app, !get_workspace_size_max.
  reflexivity.
Qed.

Lemma get_max_size_max (p : fft3d_r2c) :
  get_max_size (executor_r2c p) (executor p) = max_executor_scratch p.
Proof.
  unfold get_max_size, max_executor_scratch, executors.
  destruct (executor p) as [e0 e1]. simpl. lia.
Qed.

(** C6.  [size_comm_buffers()] is the maximum, over the reshape stages of the
    forward and of the backward pipeline, of send volume plus receive volume;
    [size_workspace()] is that maximum plus the maximum scratch size over the
    three 1D executors.  The sum is the one of [size_t]; as long as it does
    not wrap it is the sum of the integers. *)
Theorem size_workspace_is_comm_plus_scratch (p : fft3d_r2c) :
  size_comm_buffers p = max_comm_workspace p
  /\ size_workspace p = size_t_add (max_comm_workspace p) (max_executor_scratch p)
  /\ (0 <= max_executor_scratch p ->
      max_comm_workspace p + max_executor_scratch p < size_t_modulus ->
      size_workspace p = max_comm_workspace p + max_executor_scratch p).
Proof.
  assert (E : size_workspace p
              = size_t_add (max_comm_workspace p) (max_executor_scratch p)).
  { unfold size_workspace. fold (size_comm_buffers p).
    rewrite size_comm_buffers_max, get_max_size_max. reflexivity. }
  split; [apply size_comm_buffers_max|]. split; [exact E|].
  intros Hs Hlt. rewrite E. unfold size_t_add.
  apply Z.mod_small. split; [|exact Hlt].
  unfold max_comm_workspace.
  pose proof (list_max_nonneg (map reshape_size_workspace (reshape_stages p))). lia.
Qed.

Example size_workspace_cube :
  size_workspace Example.cube_plan = 24 /\ size_comm_buffers Example.cube_plan = 16.
Proof. split; vm_compute; reflexivity. Qed.

(** ** Box geometry *)

Lemma In_zrange (lo hi x : Z) : In x (zrange lo hi) <-> lo <= x <= hi.
Proof.
  unfold zrange. rewrite in_map_iff. split.
  - intros [k [<- Hk]]. apply in_seq in Hk. lia.
  - intros Hx. exists (Z.to_nat (x - lo)). split; [lia|].
    apply in_seq. lia.
Qed.

Lemma contains_spec (b : box3d) (x y z : Z) :
  contains b (x, y, z) = true <->
  get (low b) 0 <= x <= get (high b) 0
  /\ get (low b) 1 <= y <= get (high b) 1
  /\ get (low b) 2 <= z <= get (high b) 2.
Proof.
  unfold contains. destruct (low b) as [[lx ly] lz], (high b) as [[hx hy] hz].
  simpl. rewrite !andb_true_iff, !Z.leb_le. lia.
Qed.

Lemma In_points (b : box3d) (pt : int3) : In pt (points b) <-> contains b pt = true.
Proof.
  destruct pt as [[x y] z]. rewrite contains_spec.
  unfold points. destruct (low b) as [[lx ly] lz], (high b) as [[hx hy] hz]. simpl.
  rewrite in_flat_map. split.
  - intros [x' [Hx H]]. apply in_flat_map in H. destruct H as [y' [Hy H]].
    apply in_map_iff in H. destruct H as [z' [E Hz]].
    inversion E; subst. apply In_zrange in Hx, Hy, Hz. lia.
  - intros [Hx [Hy Hz]]. exists x. split; [apply In_zrange; lia|].
    apply in_flat_map. exists y. split; [apply In_zrange; lia|].
    apply in_map. apply In_zrange. lia.
Qed.

Lemma covers_union (boxes : list box3d) (world : box3d) :
  covers boxes world = true <->
  (forall pt, contains world pt = true <-> in_union boxes pt).
Proof.
  unfold covers, in_union. rewrite andb_true_iff, !forallb_forall. split.
  - intros [Hin Hall] pt. split.
    + intro Hw. apply In_points in Hw. specialize (Hall pt Hw).
      apply existsb_exists in Hall. exact Hall.
    + intros [b [Hb Hc]]. specialize (Hin b Hb).
      rewrite forallb_forall in Hin. apply Hin. apply In_points. exact Hc.
  - intro Hiff. split.
    + intros b Hb. apply forallb_forall. intros pt Hpt.
      apply Hiff. exists b. split; [exact Hb|]. apply In_points. exact Hpt.
    + intros pt Hpt. apply existsb_exists. apply Hiff. apply In_points. exact Hpt.
Qed.

Lemma plan_operations_accepts (boxes : ioboxes) (r2c_direction : Z) (plan : logic_plan3d) :
  plan_operations boxes r2c_direction = inl plan ->
  tiles (boxes_in boxes) (world_in boxes) = true
  /\ tiles (boxes_out boxes) (world_out boxes r2c_direction) = true
  /\ plan = mk_logic_plan (boxes_in boxes) (boxes_out boxes) r2c_direction
                          (count (world_in boxes)).
Proof.
  unfold plan_operations.
  destruct (valid_r2c_direction r2c_direction); simpl; [|discriminate].
  destruct (tiles (boxes_in boxes) (world_in boxes)) eqn:Ei; simpl; [|discriminate].
  destruct (tiles (boxes_out boxes) (world_out boxes r2c_direction)) eqn:Eo;
    [|discriminate].
  intro E. inversion E. auto.
Qed.

Lemma valid_r2c_direction_spec (r : Z) :
  valid_r2c_direction r = true <-> r = 0 \/ r = 1 \/ r = 2.
Proof.
  unfold valid_r2c_direction. rewrite !orb_true_iff, !Z.eqb_eq. tauto.
Qed.

Lemma plan_operations_rejects (boxes : ioboxes) (r2c_direction : Z) :
  (r2c_direction = 0 \/ r2c_direction = 1 \/ r2c_direction = 2) ->
  tiles (boxes_out boxes) (world_out boxes r2c_direction) = false ->
  plan_operations boxes r2c_direction = inr InvalidPartition.
Proof.
  unfold plan_operations. intros Hr ->.
  apply valid_r2c_direction_spec in Hr. rewrite Hr, andb_false_r. reflexivity.
Qed.

Lemma r2c_low (b : box3d) (dimension : Z) : low (r2c b dimension) = low b.
Proof. reflexivity. Qed.

Lemma r2c_size (lo hi : int3) (r : Z) :
  (r = 0 \/ r = 1 \/ r = 2) ->
  0 < size (box lo hi) r ->
  size (r2c (box lo hi) r) r = size (box lo hi) r / 2 + 1
  /\ (forall i, (i = 0 \/ i = 1 \/ i = 2) -> i <> r ->
        size (r2c (box lo hi) r) i = size (box lo hi) i).
Proof.
  intros Hr Hpos.
  destruct lo as [[lx ly] lz], hi as [[hx hy] hz].
  split.
  - destruct Hr as [-> | [-> | ->]]; unfold r2c, size in *; simpl in *;
      rewrite Z.quot_div_nonneg by lia; lia.
  - intros i Hi Hne. unfold size. simpl.
    destruct Hr as [-> | [-> | ->]], Hi as [-> | [-> | ->]]; simpl; lia.
Qed.

(** C2.  Over the global input box [{0..X-1, 0..Y-1, 0..Z-1}] and an R2C axis
    [r] in [{0,1,2}], the transformed global box starts at the origin, has
    [N_r / 2 + 1] indices along [r] (C++ integer division, which is the floor
    here) and the extent of the input box along the other two axes.  A plan
    that is accepted has output boxes whose union is exactly that box; when
    the union differs, the planner fails with [InvalidPartition] and so does
    the constructor. *)
Theorem r2c_outbox_geometry {B : Backend} (boxes : ioboxes) (r X Y Z : Z) :
  (r = 0 \/ r = 1 \/ r = 2) ->
  0 < X -> 0 < Y -> 0 < Z ->
  world_in boxes = box (0, 0, 0) (X - 1, Y - 1, Z - 1) ->
  low (world_out boxes r) = (0, 0, 0)
  /\ size (world_out boxes r) r = Z.quot (get (X, Y, Z) r) 2 + 1
  /\ size (world_out boxes r) r = get (X, Y, Z) r / 2 + 1
  /\ (forall i, (i = 0 \/ i = 1 \/ i = 2) -> i <> r ->
        size (world_out boxes r) i = get (X, Y, Z) i)
  /\ (forall plan, plan_operations boxes r = inl plan ->
        forall pt, contains (world_out boxes r) pt = true <-> in_union (boxes_out boxes) pt)
  /\ (~ (forall pt, contains (world_out boxes r) pt = true <-> in_union (boxes_out boxes) pt) ->
        plan_operations boxes r = inr InvalidPartition
        /\ forall NDEBUG inbox outbox comm,
             gather_boxes inbox outbox comm = boxes ->
             construct NDEBUG inbox outbox r comm = Rejected InvalidPartition).
Proof.
  intros Hr HX HY HZ Hw.
  assert (Hsz : forall i, (i = 0 \/ i = 1 \/ i = 2) ->
                  size (box (0, 0, 0) (X - 1, Y - 1, Z - 1)) i = get (X, Y, Z) i).
  { intros i [-> | [-> | ->]]; unfold size; simpl; lia. }
  assert (Hpos : 0 < size (box (0, 0, 0) (X - 1, Y - 1, Z - 1)) r).
  { rewrite Hsz by exact Hr. destruct Hr as [-> | [-> | ->]]; simpl; lia. }
  destruct (r2c_size (0, 0, 0) (X - 1, Y - 1, Z - 1) r Hr Hpos) as [Hsr Hso].
  unfold world_out. rewrite Hw.
  split; [reflexivity|].
  split.
  { rewrite Hsr, Hsz by exact Hr. rewrite Z.quot_div_nonneg; [reflexivity| |lia].
    destruct Hr as [-> | [-> | ->]]; simpl; lia. }
  split; [rewrite Hsr, Hsz by exact Hr; reflexivity|].
  split; [intros i Hi Hne; rewrite Hso, Hsz by assumption; reflexivity|].
  split.
  - intros plan Hplan. apply plan_operations_accepts in Hplan.
    destruct Hplan as [_ [Ht _]]. unfold world_out in Ht. rewrite Hw in Ht.
    unfold tiles in Ht. apply andb_true_iff in Ht. destruct Ht as [Hc _].
    apply covers_union. exact Hc.
  - intro Hne.
    assert (Hrej : plan_operations boxes r = inr InvalidPartition).
    { apply plan_operations_rejects; [exact Hr|]. unfold world_out. rewrite Hw.
      unfold tiles.
      destruct (covers (boxes_out boxes) (r2c (box (0, 0, 0) (X - 1, Y - 1, Z - 1)) r)) eqn:Ec;
        [|reflexivity].
      exfalso. apply Hne. apply covers_union. exact Ec. }
    split; [exact Hrej|].
    intros NDEBUG inbox outbox comm Hg. unfold construct. rewrite Hg, Hrej. reflexivity.
Qed.

Example unshortened_outboxes_rejected :
  plan_operations (mk_ioboxes [Example.inbox0; Example.inbox1]
                              [Example.inbox0; Example.inbox1]) 0
  = inr InvalidPartition
  /\ construct (B := Example.backend) false Example.inbox0 Example.inbox0 0
       (mk_comm [] [(Example.inbox1, Example.inbox1)])
     = Rejected InvalidPartition.
Proof. split; vm_compute; reflexivity. Qed.

Lemma r2c_outbox_geometry_witness :
  world_in Example.all_boxes = box (0, 0, 0) (5, 5, 5)
  /\ size (world_out Example.all_boxes 0) 0 = 4
  /\ size (world_out Example.all_boxes 0) 1 = 6
  /\ (contains (world_out Example.all_boxes 0) (3, 5, 5) = true <->
      in_union [Example.outbox0; Example.outbox1] (3, 5, 5))
  /\ (plan_operations Example.all_boxes 0 =
      inl (mk_logic_plan [Example.inbox0; Example.inbox1]
                         [Example.outbox0; Example.outbox1] 0 216)).
Proof.
  assert (Hw : world_in Example.all_boxes = box (0, 0, 0) (6 - 1, 6 - 1, 6 - 1))
    by reflexivity.
  assert (Hp : plan_operations Example.all_boxes 0 =
               inl (mk_logic_plan [Example.inbox0; Example.inbox1]
                                  [Example.outbox0; Example.outbox1] 0 216))
    by (vm_compute; reflexivity).
  destruct (r2c_outbox_geometry (B := Example.backend) Example.all_boxes 0 6 6 6
              (or_introl eq_refl) eq_refl eq_refl eq_refl Hw)
    as (_ & _ & Hr & Ho & Hu & _).
  split; [exact Hw|].
  split; [exact Hr|].
  split; [apply Ho; [right; left; reflexivity | discriminate]|].
  split; [exact (Hu _ Hp (3, 5, 5))|].
  exact Hp.
Defined.

(** ** Construction and the axis *)

Lemma plan_operations_invalid_axis (boxes : ioboxes) (r : Z) :
  plan_operations boxes r = inr InvalidR2CAxis <-> ~ (r = 0 \/ r = 1 \/ r = 2).
Proof.
  rewrite <- valid_r2c_direction_spec. unfold plan_operations.
  destruct (valid_r2c_direction r); simpl.
  - destruct (tiles (boxes_in boxes) (world_in boxes)
              && tiles (boxes_out boxes) (world_out boxes r));
      split; (discriminate || intro H; exfalso; apply H; reflexivity).
  - split; [intros _ H; discriminate | reflexivity].
Qed.

(** C3.  For every [r2c_direction] outside [{0,1,2}] the construction fails
    with [InvalidR2CAxis], whatever the boxes and whether assertions are
    enabled, and it fails in the planner, before the private constructor
    runs: no plan is built, neither one that is handed out nor one for the
    assertion to fail on.  For [r2c_direction] in [{0,1,2}] the construction
    never fails with [InvalidR2CAxis], and the assertion of the constructor
    never fails. *)
Theorem construct_rejects_invalid_axis {B : Backend}
    (NDEBUG : bool) (inbox outbox : box3d) (r : Z) (comm : MPI_Comm) :
  (~ (r = 0 \/ r = 1 \/ r = 2) ->
     construct NDEBUG inbox outbox r comm = Rejected InvalidR2CAxis
     /\ forall p, construct NDEBUG inbox outbox r comm <> Constructed p
                  /\ construct NDEBUG inbox outbox r comm <> AssertionFailed p)
  /\ ((r = 0 \/ r = 1 \/ r = 2) ->
      construct NDEBUG inbox outbox r comm <> Rejected InvalidR2CAxis
      /\ forall built, construct NDEBUG inbox outbox r comm <> AssertionFailed built).
Proof.
  split.
  - intro Hn.
    assert (E : construct NDEBUG inbox outbox r comm = Rejected InvalidR2CAxis).
    { unfold construct.
      rewrite (proj2 (plan_operations_invalid_axis (gather_boxes inbox outbox comm) r) Hn).
      reflexivity. }
    split; [exact E|]. intro p. rewrite E. split; discriminate.
  - intro Hr. unfold construct.
    destruct (plan_operations (gather_boxes inbox outbox comm) r) as [plan | e] eqn:Ep.
    + apply valid_r2c_direction_spec in Hr. rewrite Hr, orb_true_r.
      split; [discriminate | intro built; discriminate].
    + split; [|intro built; discriminate].
      intro E. inversion E; subst.
      apply plan_operations_invalid_axis in Ep. contradiction.
Qed.

Lemma construct_rejects_invalid_axis_witness :
  construct (B := Example.backend) false Example.cube Example.cube 3 Example.self
  = Rejected InvalidR2CAxis
  /\ construct (B := Example.backend) true Example.cube Example.cube (-1) Example.self
     = Rejected InvalidR2CAxis.
Proof.
  split.
  - destruct (construct_rejects_invalid_axis (B := Example.backend)
                false Example.cube Example.cube 3 Example.self) as [Hbad _].
    apply Hbad. lia.
  - destruct (construct_rejects_invalid_axis (B := Example.backend)
                true Example.cube Example.cube (-1) Example.self) as [Hbad _].
    apply Hbad. lia.
Defined.

(** ** Transform calls and buffer sizes *)

Lemma store_length {A} (dst src : list A) : List.length (store dst src) = List.length dst.
Proof.
  revert src. induction dst as [|d dst IH]; intros [|s src]; simpl; try reflexivity.
  rewrite IH. reflexivity.
Qed.

Lemma buffer_container_length {A} (zero : A) (n : Z) :
  0 <= n -> Z.of_nat (List.length (buffer_container zero n)) = n.
Proof. intro Hn. unfold buffer_container. rewrite repeat_length. lia. Qed.

Lemma outcome_map_returned {A B} (f : A -> B) (o : outcome A) (b : B) :
  outcome_map f o = Returned b -> exists a, o = Returned a /\ b = f a.
Proof.
  destruct o as [a | e]; simpl; intro E; inversion E.
  exists a. split; reflexivity.
Qed.

Lemma vector_alloc_returned {A} (zero : A) (n : Z) (v : list A) :
  - 2 ^ 31 <= n < 2 ^ 31 ->
  vector_alloc zero (size_t_of_int n) = Returned v ->
  0 <= n /\ Z.of_nat (List.length v) = n.
Proof.
  intros Hn E. unfold vector_alloc in E.
  destruct (size_t_of_int n <=? container_max_size) eqn:Hle; [|discriminate].
  apply Z.leb_le in Hle. inversion E; subst v.
  assert (H0 : 0 <= n).
  { destruct (Z.lt_ge_cases n 0) as [Hneg | Hpos]; [|exact Hpos].
    pose proof (size_t_of_int_negative n ltac:(lia)). lia. }
  split; [exact H0|].
  rewrite size_t_of_int_nonneg by lia. apply buffer_container_length. exact H0.
Qed.

(** C4, as the code has it.  The container overload of [forward] throws
    [std::invalid_argument] exactly when [input.size()] is below
    [size_inbox()] converted to [size_t], and otherwise goes on to construct
    the output container and to call the array overload.  For a
    [size_inbox()] that is not negative the bound is [size_inbox()] itself; a
    negative one converts to a bound above every container, so every input is
    rejected.  The array overloads, with or without a workspace, take raw
    pointers and hand every array to the transform unchecked. *)
Theorem forward_container_checks_input_size {B : Backend}
    (p : fft3d_r2c) (input : list scalar) (scaling : scale) :
  (Z.of_nat (List.length input) < size_t_of_int (size_inbox p) ->
     forward_container p input scaling = Thrown (std_invalid_argument forward_size_message))
  /\ (size_t_of_int (size_inbox p) <= Z.of_nat (List.length input) ->
      forward_container p input scaling
      = match vector_alloc complex_zero (size_t_of_int (size_outbox p)) with
        | Thrown e => Thrown e
        | Returned output => forward p input output scaling
        end)
  /\ (0 <= size_inbox p -> size_t_of_int (size_inbox p) = size_inbox p)
  /\ (size_inbox p < 0 ->
      Z.of_nat (List.length input) <= container_max_size ->
      forward_container p input scaling = Thrown (std_invalid_argument forward_size_message))
  /\ (forall output workspace,
        forward_workspace p input output workspace scaling
        = outcome_map (store output) (r2c_transform p input workspace scaling))
  /\ (forall cinput output workspace,
        backward_workspace p cinput output workspace scaling
        = outcome_map (store output) (c2r_transform p cinput workspace scaling))
  /\ (forall output,
        forward p input output scaling
        = outcome_map (store output)
            (r2c_transform p input (buffer_container complex_zero (size_workspace p)) scaling))
  /\ (forall cinput output,
        backward p cinput output scaling
        = outcome_map (store output)
            (c2r_transform p cinput (buffer_container complex_zero (size_workspace p)) scaling)).
Proof.
  assert (Hshort : Z.of_nat (List.length input) < size_t_of_int (size_inbox p) ->
                   forward_container p input scaling
                   = Thrown (std_invalid_argument forward_size_message)).
  { intro Hlt. unfold forward_container.
    apply Z.ltb_lt in Hlt. rewrite Hlt. reflexivity. }
  pose proof (int_wrap_range (count (pinbox p))) as Hr. fold (size_inbox p) in Hr.
  split; [exact Hshort|].
  split.
  { intro Hge. unfold forward_container.
    apply Z.ltb_ge in Hge. rewrite Hge. reflexivity. }
  split; [intro H0; apply size_t_of_int_nonneg; lia|].
  split.
  { intros Hneg Hlen. apply Hshort.
    pose proof (size_t_of_int_negative (size_inbox p) ltac:(lia)). lia. }
  repeat split.
Qed.

Lemma forward_container_checks_input_size_witness :
  forward_container (B := Example.backend) Example.cube_plan [1; 2; 3] scale_none
  = Thrown (std_invalid_argument forward_size_message).
Proof.
  destruct (forward_container_checks_input_size (B := Example.backend)
              Example.cube_plan [1; 2; 3] scale_none) as [Hshort _].
  apply Hshort. vm_compute. reflexivity.
Defined.

(** C4, the stated claim fails.  The plan over [{(0,0,0),(1,1,1)}] advertises
    8 input entries, 8 output entries and a workspace of 24.  The array
    overload with a workspace is called with three empty arrays and the
    container overload of [backward] with an empty container: neither call is
    rejected. *)
Lemma undersized_buffers_not_rejected :
  size_inbox Example.cube_plan = 8
  /\ size_outbox Example.cube_plan = 8
  /\ size_workspace Example.cube_plan = 24
  /\ forward_workspace (B := Example.backend) Example.cube_plan [] [] [] scale_none
     = Returned []
  /\ backward_container (B := Example.backend) Example.cube_plan [] scale_none
     = Returned [0; 0; 0; 0; 0; 0; 0; 0].
Proof. repeat split; vm_compute; reflexivity. Qed.

(** C9.  Whenever the container overload of [forward] returns, the container
    it returns has exactly [size_outbox()] entries, and the one of [backward]
    exactly [size_inbox()] entries, whatever the length of the input: a
    longer input does not make the result longer. *)
Theorem container_result_sizes {B : Backend} (p : fft3d_r2c) (scaling : scale) :
  (forall input out,
     forward_container p input scaling = Returned out ->
     Z.of_nat (List.length out) = size_outbox p)
  /\ (forall input out,
        backward_container p input scaling = Returned out ->
        Z.of_nat (List.length out) = size_inbox p)
  /\ (forall input longer out out',
        forward_container p input scaling = Returned out ->
        forward_container p (input ++ longer) scaling = Returned out' ->
        List.length out' = List.length out).
Proof.
  assert (Hf : forall input out,
             forward_container p input scaling = Returned out ->
             Z.of_nat (List.length out) = size_outbox p).
  { intros input out E. unfold forward_container in E.
    destruct (Z.of_nat (List.length input) <? size_t_of_int (size_inbox p)); [discriminate|].
    destruct (vector_alloc complex_zero (size_t_of_int (size_outbox p)))
      as [output | e] eqn:Ea; [|discriminate].
    apply vector_alloc_returned in Ea; [|apply int_wrap_range].
    destruct Ea as [_ Hlen].
    unfold forward, standard_transform_r2c, standard_transform_r2c_ws in E.
    apply outcome_map_returned in E. destruct E as [vals [_ ->]].
    rewrite store_length. exact Hlen. }
  split; [exact Hf|].
  split.
  - intros input out E. unfold backward_container in E.
    destruct (vector_alloc scalar_zero (size_t_of_int (size_inbox p)))
      as [result | e] eqn:Ea; [|discriminate].
    apply vector_alloc_returned in Ea; [|apply int_wrap_range].
    destruct Ea as [_ Hlen].
    unfold backward, standard_transform_c2r, standard_transform_c2r_ws in E.
    apply outcome_map_returned in E. destruct E as [vals [_ ->]].
    rewrite store_length. exact Hlen.
  - intros input longer out out' E E'.
    apply Hf in E. apply Hf in E'. lia.
Qed.

Lemma container_result_sizes_witness :
  exists out,
    forward_container (B := Example.backend) Example.cube_plan
      [1; 2; 3; 4; 5; 6; 7; 8; 9; 10; 11; 12] scale_full = Returned out
    /\ Z.of_nat (List.length out) = 8.
Proof.
  assert (E : forward_container (B := Example.backend) Example.cube_plan
                [1; 2; 3; 4; 5; 6; 7; 8; 9; 10; 11; 12] scale_full
              = Returned [(1, 0); (2, 0); (3, 0); (4, 0); (5, 0); (6, 0); (7, 0); (8, 0)])
    by (vm_compute; reflexivity).
  destruct (container_result_sizes (B := Example.backend) Example.cube_plan scale_full)
    as (Hf & _ & _).
  eexists. split; [exact E|].
  exact (eq_trans (Hf _ _ E) eq_refl).
Defined.

(** C10.  The call without a workspace is the call with a workspace, made on
    a fresh container of [size_workspace()] complex entries: same input, same
    output array, same scaling, same outcome.  This holds for [forward] and
    for [backward]. *)
Theorem forward_allocates_workspace {B : Backend} (p : fft3d_r2c) (scaling : scale) :
  (forall input output,
     forward p input output scaling
     = forward_workspace p input output
         (buffer_container complex_zero (size_workspace p)) scaling)
  /\ (forall input output,
        backward p input output scaling
        = backward_workspace p input output
            (buffer_container complex_zero (size_workspace p)) scaling)
  /\ Z.of_nat (List.length (buffer_container complex_zero (size_workspace p)))
     = size_workspace p.
Proof.
  split; [|split].
  - intros input output. unfold forward, standard_transform_r2c, forward_workspace.
    reflexivity.
  - intros input output. unfold backward, standard_transform_c2r, backward_workspace.
    reflexivity.
  - apply buffer_container_length. unfold size_workspace, size_t_add, size_t_modulus.
    apply Z.mod_pos_bound. lia.
Qed.

(** ** Calls leave the plan as it is *)

Lemma exec_array_outcome {B : Backend} (this : fft3d_r2c) :
  (forall input output scaling,
     snd (exec (call_forward input output scaling) this)
     = outcome_map complex_array (forward this input output scaling))
  /\ (forall input output scaling,
        snd (exec (call_backward input output scaling) this)
        = outcome_map real_array (backward this input output scaling)).
Proof. split; reflexivity. Qed.

Lemma exec_forward_container {B : Backend} (input : list scalar) (scaling : scale)
    (this : fft3d_r2c) :
  snd (exec (call_forward_container input scaling) this)
  = outcome_map complex_array (forward_container this input scaling).
Proof.
  unfold exec, forward_container.
  destruct (Z.of_nat (List.length input) <? size_t_of_int (size_inbox this));
    [reflexivity|].
  destruct (vector_alloc complex_zero (size_t_of_int (size_outbox this))); reflexivity.
Qed.

Lemma exec_backward_container {B : Backend} (input : list complex) (scaling : scale)
    (this : fft3d_r2c) :
  snd (exec (call_backward_container input scaling) this)
  = outcome_map real_array (backward_container this input scaling).
Proof.
  unfold exec, backward_container.
  destruct (vector_alloc scalar_zero (size_t_of_int (size_inbox this))); reflexivity.
Qed.












Example failed_call_then_successful_call :
  run (B := Example.backend)
      [call_forward_container (B := Example.backend) [1; 2; 3] scale_none;
       call_forward_container (B := Example.backend) [1; 2; 3; 4; 5; 6; 7; 8] scale_none]
      Example.cube_plan
  = (Example.cube_plan,
     [Thrown (std_invalid_argument forward_size_message);
      Returned (complex_array (B := Example.backend)
                  [(1, 0); (2, 0); (3, 0); (4, 0); (5, 0); (6, 0); (7, 0); (8, 0)])]).
Proof. vm_compute. reflexivity. Qed.

(** ** Element types accepted at a call site *)

Module CallSiteFacts.
Import CallSite.

Lemma is_same_eq (a b : cxx_type) : is_same a b = true <-> a = b.
Proof.
  destruct a as [| |[|]|[|]|n], b as [| |[|]|[|]|m]; simpl;
    try (split; (reflexivity || discriminate)).
  rewrite String.eqb_eq. split; [intros ->; reflexivity | intro E; inversion E; reflexivity].
Qed.

Lemma complex_not_real (t : cxx_type) :
  is_ccomplex t || is_zcomplex t = true -> t <> t_float /\ t <> t_double.
Proof. destruct t as [| |[|]|[|]|n]; simpl; intro E; split; discriminate. Qed.

Lemma forward_static_assert_spec (i o : cxx_type) :
  forward_static_assert i o = true <->
  (i = t_float /\ is_ccomplex o = true) \/ (i = t_double /\ is_zcomplex o = true).
Proof.
  unfold forward_static_assert.
  rewrite orb_true_iff, !andb_true_iff, !is_same_eq. reflexivity.
Qed.

Lemma backward_static_assert_spec (i o : cxx_type) :
  backward_static_assert i o = true <->
  (o = t_float /\ is_ccomplex i = true) \/ (o = t_double /\ is_zcomplex i = true).
Proof.
  unfold backward_static_assert.
  rewrite orb_true_iff, !andb_true_iff, !is_same_eq. reflexivity.
Qed.

(** Once the [static_assert] holds, the call in the body resolves. *)
Lemma forward_assert_resolves (i o : cxx_type) :
  forward_static_assert i o = true -> standard_transform_resolves i o = true.
Proof.
  intro Ha. apply forward_static_assert_spec in Ha.
  destruct Ha as [[-> Ho] | [-> Ho]];
    destruct o as [| |[|]|[|]|n]; simpl in Ho; try discriminate; reflexivity.
Qed.

Lemma backward_assert_resolves (i o : cxx_type) :
  backward_static_assert i o = true -> standard_transform_resolves i o = true.
Proof.
  intro Ha. apply backward_static_assert_spec in Ha.
  destruct Ha as [[-> Hi] | [-> Hi]];
    destruct i as [| |[|]|[|]|n]; simpl in Hi; try discriminate; reflexivity.
Qed.

(** C5.  A [forward] call site compiles exactly when the input type is
    [float] and the output type a single-precision complex type, or the input
    type is [double] and the output type a double-precision complex type; a
    [backward] call site exactly with the converse pairing.  Every other
    pair of types is rejected when the call site is compiled, a complex input
    to [forward] among them.  A workspace must have the complex type of the
    call.  The container overloads accept [float] and [double] ([forward])
    and the complex types ([backward]). *)
Theorem call_site_types (input_type output_type : cxx_type) :
  (forward_compiles input_type output_type = true <->
     (input_type = t_float /\ is_ccomplex output_type = true)
     \/ (input_type = t_double /\ is_zcomplex output_type = true))
  /\ (backward_compiles input_type output_type = true <->
        (output_type = t_float /\ is_ccomplex input_type = true)
        \/ (output_type = t_double /\ is_zcomplex input_type = true))
  /\ (forall workspace_type,
        forward_workspace_compiles input_type output_type workspace_type = true <->
        workspace_type = output_type /\ forward_compiles input_type output_type = true)
  /\ (forall workspace_type,
        backward_workspace_compiles input_type output_type workspace_type = true <->
        workspace_type = input_type /\ backward_compiles input_type output_type = true)
  /\ (is_ccomplex input_type || is_zcomplex input_type = true ->
        forward_compiles input_type output_type = false)
  /\ (forward_container_compiles input_type = true <->
        input_type = t_float \/ input_type = t_double)
  /\ (backward_container_compiles input_type = true <->
        is_ccomplex input_type || is_zcomplex input_type = true).
Proof.
  split.
  { unfold forward_compiles. rewrite andb_true_iff, <- forward_static_assert_spec.
    split; [intros [Ha _]; exact Ha|].
    intro Ha. split; [exact Ha | apply forward_assert_resolves; exact Ha]. }
  split.
  { unfold backward_compiles. rewrite andb_true_iff, <- backward_static_assert_spec.
    split; [intros [Ha _]; exact Ha|].
    intro Ha. split; [exact Ha | apply backward_assert_resolves; exact Ha]. }
  split.
  { intro w. unfold forward_workspace_compiles.
    rewrite andb_true_iff, is_same_eq. reflexivity. }
  split.
  { intro w. unfold backward_workspace_compiles.
    rewrite andb_true_iff, is_same_eq. reflexivity. }
  split.
  { intro Hc. apply complex_not_real in Hc. destruct Hc as [Hf Hd].
    unfold forward_compiles.
    destruct (forward_static_assert input_type output_type) eqn:Ea; [|reflexivity].
    apply forward_static_assert_spec in Ea.
    destruct Ea as [[E _] | [E _]]; contradiction. }
  split.
  - destruct input_type as [| |[|]|[|]|n]; simpl; split; intro E;
      try discriminate; try reflexivity; auto;
      destruct E as [E | E]; discriminate.
  - destruct input_type as [| |[|]|[|]|n]; simpl; split; intro E;
      try discriminate; reflexivity.
Qed.

Example forward_complex_input_rejected :
  forward_compiles (t_std_complex single) (t_std_complex single) = false
  /\ forward_compiles t_float (t_std_complex double_precision) = false
  /\ forward_compiles t_float (t_backend_complex single) = true
  /\ backward_compiles (t_std_complex double_precision) t_double = true
  /\ backward_compiles t_double (t_std_complex double_precision) = false.
Proof. repeat split. Qed.

End CallSiteFacts.

(** * Further properties of the plan *)

(** ** What a constructed plan reports *)

Lemma gather_boxes_own (ib ob : box3d) (comm : MPI_Comm) :
  nth (comm_rank comm) (boxes_in (gather_boxes ib ob comm)) no_box = ib
  /\ nth (comm_rank comm) (boxes_out (gather_boxes ib ob comm)) no_box = ob.
Proof.
  unfold gather_boxes, comm_rank. simpl. rewrite !map_app. simpl.
  split.
  - rewrite <- (length_map fst (ranks_before comm)). apply nth_middle.
  - rewrite <- (length_map snd (ranks_before comm)). apply nth_middle.
Qed.

Lemma construct_built_from_plan {B : Backend}
    (NDEBUG : bool) (ib ob : box3d) (r : Z) (comm : MPI_Comm) (p : fft3d_r2c) :
  construct NDEBUG ib ob r comm = Constructed p
  \/ construct NDEBUG ib ob r comm = AssertionFailed p ->
  exists plan,
    plan_operations (gather_boxes ib ob comm) r = inl plan
    /\ p = build plan (comm_rank comm) comm.
Proof.
  unfold construct.
  destruct (plan_operations (gather_boxes ib ob comm) r) as [plan | e].
  - destruct (NDEBUG || valid_r2c_direction r); intros [E | E]; inversion E;
      exists plan; split; reflexivity.
  - intros [E | E]; discriminate.
Qed.

(** X3.  A plan that the constructor hands out answers [inbox()] and
    [outbox()] with the two boxes the constructor was called with, on every
    rank of the communicator, and [size_inbox()] and [size_outbox()] with
    their numbers of lattice points as an [int]: the number itself when it is
    below [2^31].  (The private constructor and the gathering of the boxes
    are the modelled ones.) *)
Theorem constructed_plan_reports_boxes {B : Backend}
    (NDEBUG : bool) (ib ob : box3d) (r : Z) (comm : MPI_Comm) (p : fft3d_r2c) :
  construct NDEBUG ib ob r comm = Constructed p ->
  inbox p = ib
  /\ outbox p = ob
  /\ size_inbox p = int_wrap (count ib)
  /\ size_outbox p = int_wrap (count ob)
  /\ (count ib < 2 ^ 31 -> size_inbox p = count ib)
  /\ (count ob < 2 ^ 31 -> size_outbox p = count ob).
Proof.
  intro E.
  destruct (construct_built_from_plan NDEBUG ib ob r comm p (or_introl E))
    as [plan [Hplan ->]].
  apply plan_operations_accepts in Hplan. destruct Hplan as [_ [_ ->]].
  destruct (gather_boxes_own ib ob comm) as [Hi Ho].
  unfold inbox, outbox, size_inbox, size_outbox, build.
  cbn [pinbox poutbox L0 L3]. rewrite Hi, Ho.
  pose proof (count_nonneg ib). pose proof (count_nonneg ob).
  repeat split; intro Hlt; apply int_wrap_small; lia.
Qed.

Lemma constructed_plan_reports_boxes_witness :
  exists p,
    construct (B := Example.backend) false Example.inbox1 Example.outbox1 0
      (mk_comm [(Example.inbox0, Example.outbox0)] []) = Constructed p
    /\ inbox p = Example.inbox1
    /\ size_outbox p = 72.
Proof.
  eexists. split; [vm_compute; reflexivity|].
  destruct (constructed_plan_reports_boxes (B := Example.backend) false
              Example.inbox1 Example.outbox1 0
              (mk_comm [(Example.inbox0, Example.outbox0)] []) _ eq_refl)
    as (Hi & _ & _ & _ & _ & Ho).
  split; [exact Hi | apply Ho; vm_compute; reflexivity].
Defined.





(** ** Containers that go from one transform to the other *)

Lemma backward_container_length {B : Backend}
    (p : fft3d_r2c) (input : list complex) (scaling : scale) (out : list scalar) :
  backward_container p input scaling = Returned out ->
  0 <= size_inbox p /\ Z.of_nat (List.length out) = size_inbox p.
Proof.
  intro E. unfold backward_container in E.
  destruct (vector_alloc scalar_zero (size_t_of_int (size_inbox p)))
    as [result | e] eqn:Ea; [|discriminate].
  apply vector_alloc_returned in Ea; [|apply int_wrap_range].
  destruct Ea as [H0 Hlen]. split; [exact H0|].
  unfold backward, standard_transform_c2r, standard_transform_c2r_ws in E.
  apply outcome_map_returned in E. destruct E as [vals [_ ->]].
  rewrite store_length. exact Hlen.
Qed.

(** X6.  A container that the container overload of [backward] returns always
    passes the size check of the container overload of [forward]: it has
    exactly [size_inbox()] entries, which is the bound of that check, so
    feeding it back does not throw the [std::invalid_argument] of the header
    and goes on to construct the output and to call the array overload. *)
Theorem backward_result_passes_forward_check {B : Backend}
    (p : fft3d_r2c) (input : list complex) (s s' : scale) (out : list scalar) :
  backward_container p input s = Returned out ->
  Z.of_nat (List.length out) = size_inbox p
  /\ size_t_of_int (size_inbox p) = Z.of_nat (List.length out)
  /\ forward_container p out s'
     = match vector_alloc complex_zero (size_t_of_int (size_outbox p)) with
       | Thrown e => Thrown e
       | Returned output => forward p out output s'
       end.
Proof.
  intro E. destruct (backward_container_length p input s out E) as [H0 Hlen].
  pose proof (int_wrap_range (count (pinbox p))) as Hr. fold (size_inbox p) in Hr.
  assert (Hb : size_t_of_int (size_inbox p) = Z.of_nat (List.length out)).
  { rewrite size_t_of_int_nonneg by lia. lia. }
  split; [exact Hlen|]. split; [exact Hb|].
  unfold forward_container. rewrite Hb, Z.ltb_irrefl. reflexivity.
Qed.

Lemma backward_result_passes_forward_check_witness :
  forward_container (B := Example.backend) Example.cube_plan
    [1; 2; 3; 0; 0; 0; 0; 0] scale_symmetric
  = Returned [(1, 0); (2, 0); (3, 0); (0, 0); (0, 0); (0, 0); (0, 0); (0, 0)].
Proof.
  destruct (backward_result_passes_forward_check (B := Example.backend)
              Example.cube_plan [(1, 5); (2, 6); (3, 7)] scale_symmetric scale_symmetric
              [1; 2; 3; 0; 0; 0; 0; 0] eq_refl) as (_ & _ & Hf).
  rewrite Hf. reflexivity.
Defined.

(** ** The communication buffers inside the workspace *)

Lemma size_comm_buffers_nonneg (p : fft3d_r2c) : 0 <= size_comm_buffers p.
Proof.
  rewrite size_comm_buffers_max. unfold max_comm_workspace. apply list_max_nonneg.
Qed.

(** X8.  [size_workspace()] is a [size_t] value, and as long as the sum in it
    does not wrap, the communication buffers fit into the workspace: what
    [size_workspace()] adds to [size_comm_buffers()] is the scratch size of the
    executors.  The sum can wrap: there are sizes for which the workspace
    comes out smaller than the communication buffers. *)
Theorem comm_buffers_fit_in_workspace (p : fft3d_r2c) :
  0 <= get_max_size (executor_r2c p) (executor p) ->
  size_comm_buffers p + get_max_size (executor_r2c p) (executor p) < size_t_modulus ->
  0 <= size_comm_buffers p <= size_workspace p
  /\ size_workspace p < size_t_modulus
  /\ size_workspace p - size_comm_buffers p = get_max_size (executor_r2c p) (executor p)
  /\ (exists q,
        0 <= get_max_size (executor_r2c q) (executor q) < size_t_modulus
        /\ size_workspace q < size_comm_buffers q).
Proof.
  intros Hs Hlt. pose proof (size_comm_buffers_nonneg p) as Hc.
  assert (E : size_workspace p
              = size_comm_buffers p + get_max_size (executor_r2c p) (executor p)).
  { unfold size_workspace. fold (size_comm_buffers p). unfold size_t_add.
    apply Z.mod_small. lia. }
  split; [lia|]. split; [lia|]. split; [lia|].
  exists (mk_plan Example.cube Example.cube PrimFloat.one
            (Some (mk_reshape 8 8), None, None, None) (None, None, None, None)
            (mk_executor (size_t_modulus - 1)) (mk_executor 0, mk_executor 0)).
  vm_compute. repeat split; discriminate.
Qed.

Lemma comm_buffers_fit_in_workspace_witness :
  0 <= size_comm_buffers Example.cube_plan <= size_workspace Example.cube_plan
  /\ size_workspace Example.cube_plan - size_comm_buffers Example.cube_plan = 8.
Proof.
  destruct (comm_buffers_fit_in_workspace Example.cube_plan) as (Hle & _ & Hd & _).
  - vm_compute. discriminate.
  - vm_compute. reflexivity.
  - split; [exact Hle | exact Hd].
Defined.

(** ** The two directions at the type level *)

Module CallSiteConverse.
Import CallSite.

Lemma forward_static_assert_spec_compiles (i o : cxx_type) :
  forward_compiles i o = true ->
  (i = t_float /\ is_ccomplex o = true) \/ (i = t_double /\ is_zcomplex o = true).
Proof.
  unfold forward_compiles. intro H. apply andb_true_iff in H. destruct H as [Ha _].
  apply CallSiteFacts.forward_static_assert_spec. exact Ha.
Qed.

(** X9.  The type checks of [forward] and [backward] mirror each other: a
    pair of element types compiles as a [forward] call exactly when the
    swapped pair compiles as a [backward] call.  No pair compiles in both
    directions, and a call never compiles with the same type on both sides. *)
Theorem forward_backward_mirror (input_type output_type : cxx_type) :
  forward_compiles input_type output_type = backward_compiles output_type input_type
  /\ (forward_compiles input_type output_type = true ->
      backward_compiles input_type output_type = false)
  /\ forward_compiles input_type input_type = false
  /\ backward_compiles input_type input_type = false.
Proof.
  split.
  - unfold forward_compiles, backward_compiles, forward_static_assert,
      backward_static_assert, standard_transform_resolves.
    f_equal. apply orb_comm.
  - split.
    + intro Hf. apply forward_static_assert_spec_compiles in Hf.
      destruct Hf as [[-> Ho] | [-> Ho]];
        destruct output_type as [| |[|]|[|]|n]; simpl in Ho; try discriminate;
        reflexivity.
    + destruct input_type as [| |[|]|[|]|n]; split; reflexivity.
Qed.

(** X10.  The container overloads fit together at the type level.  The
    container that [forward] returns for a real input type is one that
    [backward] accepts, and [backward] turns it into a container of the
    original real type; the container that [backward] returns for a complex
    input type is one that [forward] accepts, and [forward] turns it into
    [std::complex] of the same precision. *)
Theorem container_types_round_trip (t : cxx_type) :
  (forward_container_compiles t = true ->
     exists c, fft_output t = Some c
               /\ backward_container_compiles c = true
               /\ standard_value_type c = Some t)
  /\ (backward_container_compiles t = true ->
        exists r, standard_value_type t = Some r
                  /\ forward_container_compiles r = true
                  /\ fft_output r = Some (define_standard_type t)).
Proof.
  split; intro H; destruct t as [| |[|]|[|]|n]; simpl in H; try discriminate;
    eexists; repeat split.
Qed.

End CallSiteConverse.

(** ** The shortened box *)

Lemma size_r2c (b : box3d) (r i : Z) :
  (r = 0 \/ r = 1 \/ r = 2) -> (i = 0 \/ i = 1 \/ i = 2) ->
  size (r2c b r) i = if i =? r then Z.quot (size b r) 2 + 1 else size b i.
Proof.
  destruct b as [[[lx ly] lz] [[hx hy] hz] ord].
  intros [-> | [-> | ->]] [-> | [-> | ->]]; unfold r2c, size; simpl; lia.
Qed.

Lemma empty_false (b : box3d) :
  empty b = false <-> 0 < size b 0 /\ 0 < size b 1 /\ 0 < size b 2.
Proof.
  unfold empty. rewrite !orb_false_iff, !Z.leb_gt. tauto.
Qed.

Lemma half_counts (n m : Z) :
  0 < n -> 0 < m ->
  0 < (n / 2 + 1) * m <= n * m
  /\ (n mod 2 = 1 -> 2 * ((n / 2 + 1) * m) * n = n * m * (n + 1))
  /\ (n mod 2 = 0 -> 2 * ((n / 2 + 1) * m) * n = n * m * (n + 2)).
Proof.
  intros Hn Hm. pose proof (Z.div_mod n 2 ltac:(lia)) as Hd.
  pose proof (Z.mod_pos_bound n 2 ltac:(lia)) as Hb.
  split.
  - split; [apply Z.mul_pos_pos; lia|].
    apply Z.mul_le_mono_nonneg_r; lia.
  - split; intro Hmod; rewrite Hmod in Hd.
    + replace (2 * ((n / 2 + 1) * m) * n) with ((2 * (n / 2 + 1)) * m * n) by ring.
      replace (2 * (n / 2 + 1)) with (n + 1) by lia. ring.
    + replace (2 * ((n / 2 + 1) * m) * n) with ((2 * (n / 2 + 1)) * m * n) by ring.
      replace (2 * (n / 2 + 1)) with (n + 2) by lia. ring.
Qed.

(** X11.  Shortening a non-empty box along an axis [r] in [{0,1,2}] gives a
    non-empty box that lies inside the original one and never holds more
    points.  With [N] the extent along [r], it holds [N/2 + 1] of every [N]
    points; counted twice (a complex entry is two reals) that is one plane
    more than the original for odd [N] and two planes more for even [N], so
    an axis with an odd number of indexes gives the smaller data set. *)
Theorem r2c_box_inside_and_counts (b : box3d) (r : Z) :
  (r = 0 \/ r = 1 \/ r = 2) ->
  empty b = false ->
  empty (r2c b r) = false
  /\ (forall pt, contains (r2c b r) pt = true -> contains b pt = true)
  /\ count (r2c b r) * size b r = count b * (size b r / 2 + 1)
  /\ 0 < count (r2c b r) <= count b
  /\ (size b r mod 2 = 1 -> 2 * count (r2c b r) * size b r = count b * (size b r + 1))
  /\ (size b r mod 2 = 0 -> 2 * count (r2c b r) * size b r = count b * (size b r + 2)).
Proof.
  intros Hr He. pose proof He as Hpos. apply empty_false in Hpos.
  destruct Hpos as (H0 & H1 & H2).
  assert (Hq : forall n, 0 < n -> Z.quot n 2 = n / 2 /\ 0 < n / 2 + 1 <= n).
  { intros n Hn. split; [apply Z.quot_div_nonneg; lia|].
    pose proof (Z.div_mod n 2 ltac:(lia)). pose proof (Z.mod_pos_bound n 2 ltac:(lia)). lia. }
  assert (S0 := size_r2c b r 0 Hr (or_introl eq_refl)).
  assert (S1 := size_r2c b r 1 Hr (or_intror (or_introl eq_refl))).
  assert (S2 := size_r2c b r 2 Hr (or_intror (or_intror eq_refl))).
  assert (He' : empty (r2c b r) = false).
  { apply empty_false. rewrite S0, S1, S2.
    destruct Hr as [-> | [-> | ->]]; simpl;
      [destruct (Hq _ H0) as [-> ?] | destruct (Hq _ H1) as [-> ?]
       | destruct (Hq _ H2) as [-> ?]]; lia. }
  split; [exact He'|].
  split.
  { intros [[x y] z]. rewrite !contains_spec.
    destruct b as [[[lx ly] lz] [[hx hy] hz] ord].
    clear S0 S1 S2 He He'. unfold r2c, size in *. simpl in *.
    destruct Hr as [-> | [-> | ->]]; simpl;
      [destruct (Hq _ H0) as [-> ?] | destruct (Hq _ H1) as [-> ?]
       | destruct (Hq _ H2) as [-> ?]]; lia. }
  unfold count. rewrite He, He'.
  destruct Hr as [-> | [-> | ->]]; simpl in S0, S1, S2; rewrite S0, S1, S2;
    [destruct (Hq _ H0) as [-> Hb]; set (n := size b 0) in *;
       set (m := size b 1 * size b 2);
       replace ((n / 2 + 1) * size b 1 * size b 2) with ((n / 2 + 1) * m) by (unfold m; ring);
       replace (n * size b 1 * size b 2) with (n * m) by (unfold m; ring);
       assert (Hm : 0 < m) by (unfold m; nia)
    | destruct (Hq _ H1) as [-> Hb]; set (n := size b 1) in *;
       set (m := size b 0 * size b 2);
       replace (size b 0 * (n / 2 + 1) * size b 2) with ((n / 2 + 1) * m) by (unfold m; ring);
       replace (size b 0 * n * size b 2) with (n * m) by (unfold m; ring);
       assert (Hm : 0 < m) by (unfold m; nia)
    | destruct (Hq _ H2) as [-> Hb]; set (n := size b 2) in *;
       set (m := size b 0 * size b 1);
       replace (size b 0 * size b 1 * (n / 2 + 1)) with ((n / 2 + 1) * m) by (unfold m; ring);
       replace (size b 0 * size b 1 * n) with (n * m) by (unfold m; ring);
       assert (Hm : 0 < m) by (unfold m; nia) ];
    (destruct (half_counts n m ltac:(assumption) Hm) as (Hle & Hodd & Heven);
     clearbody n m; split; [ring|]; split; [nia|];
     split; intro Hmod; [specialize (Hodd Hmod) | specialize (Heven Hmod)]; nia).
Qed.

Lemma r2c_box_inside_and_counts_witness :
  count (r2c Example.cube 0) = 8
  /\ count (r2c (box (0, 0, 0) (4, 5, 5)) 0) = 108
  /\ count (r2c (box (0, 0, 0) (5, 5, 5)) 0) = 144.
Proof.
  destruct (r2c_box_inside_and_counts (box (0, 0, 0) (4, 5, 5)) 0
              (or_introl eq_refl) eq_refl) as (_ & _ & _ & _ & Hodd & _).
  split; [reflexivity|]. split; [|reflexivity].
  specialize (Hodd eq_refl). vm_compute in Hodd |- *. reflexivity.
Defined.

(** ** A rank without data *)

(** X12.  On a rank whose inbox is empty, [size_inbox()] is zero and the
    container overload of [forward] accepts every container, the empty one
    included: its size check cannot fail, and the call goes on to construct
    the output container and to call the array overload on it.  If the outbox
    is empty as well, whatever the call returns is an empty container. *)
Theorem empty_inbox_accepts_any_container {B : Backend}
    (p : fft3d_r2c) (input : list scalar) (scaling : scale) :
  empty (pinbox p) = true ->
  size_inbox p = 0
  /\ forward_container p input scaling
     = match vector_alloc complex_zero (size_t_of_int (size_outbox p)) with
       | Thrown e => Thrown e
       | Returned output => forward p input output scaling
       end
  /\ (0 <= size_outbox p ->
      forward_container p input scaling
      = forward p input (buffer_container complex_zero (size_outbox p)) scaling)
  /\ (empty (poutbox p) = true ->
      forall out, forward_container p input scaling = Returned out -> out = []).
Proof.
  intro He.
  assert (Hz : size_inbox p = 0) by (unfold size_inbox, count; rewrite He; reflexivity).
  assert (Hf : forward_container p input scaling
               = match vector_alloc complex_zero (size_t_of_int (size_outbox p)) with
                 | Thrown e => Thrown e
                 | Returned output => forward p input output scaling
                 end).
  { unfold forward_container. rewrite Hz.
    change (size_t_of_int 0) with 0.
    destruct (Z.of_nat (List.length input) <? 0) eqn:Hlt; [|reflexivity].
    apply Z.ltb_lt in Hlt. lia. }
  split; [exact Hz|]. split; [exact Hf|].
  split.
  - intro H0. rewrite Hf.
    pose proof (int_wrap_range (count (poutbox p))) as Hr. fold (size_outbox p) in Hr.
    rewrite size_t_of_int_nonneg by lia. unfold vector_alloc.
    destruct (size_outbox p <=? container_max_size) eqn:Hle; [reflexivity|].
    apply Z.leb_gt in Hle. unfold container_max_size in Hle. lia.
  - intros Ho out E. rewrite Hf in E.
    assert (Hzo : size_outbox p = 0) by (unfold size_outbox, count; rewrite Ho; reflexivity).
    rewrite Hzo in E. change (vector_alloc complex_zero (size_t_of_int 0))
      with (Returned (@nil complex)) in E.
    unfold forward, standard_transform_r2c, standard_transform_r2c_ws in E.
    apply outcome_map_returned in E. destruct E as [vals [_ ->]]. reflexivity.
Qed.

Lemma empty_inbox_accepts_any_container_witness :
  forward_container (B := Example.backend)
    (mk_plan no_box no_box PrimFloat.one
             (None, None, None, None) (None, None, None, None)
             (mk_executor 0) (mk_executor 0, mk_executor 0))
    [] scale_none
  = Returned [].
Proof.
  destruct (empty_inbox_accepts_any_container (B := Example.backend)
              (mk_plan no_box no_box PrimFloat.one
                       (None, None, None, None) (None, None, None, None)
                       (mk_executor 0) (mk_executor 0, mk_executor 0))
              [] scale_none eq_refl) as (_ & Hf & _).
  rewrite Hf. reflexivity.
Defined.
